(** * Verification of the martini csrf middleware (csrf.go)

    The package issues anti-forgery tokens in [Generate] and checks them in
    [Validate].  Token derivation and verification are delegated to the
    external package [code.google.com/p/xsrftoken]; that package is not part
    of this repository, so its two functions are modelled from the spec
    (section 4.1, TokenCodec).  Everything else follows [src/csrf.go]. *)

From Stdlib Require Import String Ascii List Bool NArith Lia.
From Stdlib Require Import DecimalN.
Import ListNotations.
Open Scope string_scope.

(** ** Decimal rendering of timestamps *)

Fixpoint string_of_uint (d : Decimal.uint) : string :=
  match d with
  | Decimal.Nil => ""
  | Decimal.D0 d => String "0" (string_of_uint d)
  | Decimal.D1 d => String "1" (string_of_uint d)
  | Decimal.D2 d => String "2" (string_of_uint d)
  | Decimal.D3 d => String "3" (string_of_uint d)
  | Decimal.D4 d => String "4" (string_of_uint d)
  | Decimal.D5 d => String "5" (string_of_uint d)
  | Decimal.D6 d => String "6" (string_of_uint d)
  | Decimal.D7 d => String "7" (string_of_uint d)
  | Decimal.D8 d => String "8" (string_of_uint d)
  | Decimal.D9 d => String "9" (string_of_uint d)
  end.

Definition digit_of_ascii (c : ascii) : option (Decimal.uint -> Decimal.uint) :=
  if Ascii.eqb c "0" then Some Decimal.D0
  else if Ascii.eqb c "1" then Some Decimal.D1
  else if Ascii.eqb c "2" then Some Decimal.D2
  else if Ascii.eqb c "3" then Some Decimal.D3
  else if Ascii.eqb c "4" then Some Decimal.D4
  else if Ascii.eqb c "5" then Some Decimal.D5
  else if Ascii.eqb c "6" then Some Decimal.D6
  else if Ascii.eqb c "7" then Some Decimal.D7
  else if Ascii.eqb c "8" then Some Decimal.D8
  else if Ascii.eqb c "9" then Some Decimal.D9
  else None.

Fixpoint uint_of_string (s : string) : option Decimal.uint :=
  match s with
  | EmptyString => Some Decimal.Nil
  | String c rest =>
      match digit_of_ascii c, uint_of_string rest with
      | Some f, Some d => Some (f d)
      | _, _ => None
      end
  end.

(** Decimal form of a timestamp, as [fmt.Sprintf("%d", n)]. *)
Definition show_N (n : N) : string := string_of_uint (N.to_uint n).

(** [strconv.ParseInt(s, 10, 64)] restricted to non-negative values:
    the empty string and any non-digit are rejected. *)
Definition parse_N (s : string) : option N :=
  match s with
  | EmptyString => None
  | _ => option_map N.of_uint (uint_of_string s)
  end.

(** [bytes.LastIndex(data, ":")]: the text before and after the last colon. *)
Fixpoint split_last_colon (s : string) : option (string * string) :=
  match s with
  | EmptyString => None
  | String c rest =>
      match split_last_colon rest with
      | Some (p, d) => Some (String c p, d)
      | None => if Ascii.eqb c ":" then Some (EmptyString, rest) else None
      end
  end.

(** ** TokenCodec *)

(** Validity window of a token: 24 hours, time counted in seconds. *)
Definition Timeout : N := 86400.

Definition within_window (now t : N) : bool :=
  (t <=? now)%N && (now - t <? Timeout)%N.

Section TokenCodec.

(** The keyed message authentication code: [hmac key message]. *)
Variable hmac : string -> string -> string.

(** Modelled from the spec: [xsrftoken.Generate] (at a given time), the
    token derivation of section 4.1: a keyed tag over the subject id,
    the action label and the timestamp, followed by the embedded
    timestamp. *)
Definition derive (secret subjectId actionLabel : string) (t : N) : string :=
  hmac secret (subjectId ++ ":" ++ actionLabel ++ ":" ++ show_N t)
    ++ ":" ++ show_N t.

(** Modelled from the spec: [xsrftoken.Valid] (at a given time), the
    verification of section 4.1: read the embedded timestamp, check it is
    within the validity window of [now], and compare the candidate with the
    token derived from the same secret, subject id and action label at that
    timestamp.  Every malformed candidate is answered by [false]. *)
Definition verify (candidate secret subjectId actionLabel : string) (now : N)
  : bool :=
  match split_last_colon candidate with
  | None => false
  | Some (_, ts) =>
      match parse_N ts with
      | None => false
      | Some t =>
          within_window now t
            && String.eqb candidate (derive secret subjectId actionLabel t)
      end
  end.

End TokenCodec.

(** ** The hostname-shape check [domainReg]

    A regular expression as Go's [regexp] package parses it, with a
    backtracking matcher: [mt r s i k] holds when [r] matches [s] from
    position [i] to some position [j] with [k j]. *)

Inductive regex : Type :=
| REps                              (* empty match *)
| RChar (c : ascii)                 (* a literal character *)
| RClass (p : ascii -> bool)        (* a character class [...] *)
| RBol                              (* ^ : beginning of text *)
| REol                              (* $ : end of text *)
| RSeq (a b : regex)                (* concatenation *)
| RAlt (a b : regex)                (* alternation a|b *)
| RStar (a : regex).                (* a* *)

Definition RPlus (a : regex) : regex := RSeq a (RStar a).
Definition ROpt (a : regex) : regex := RAlt a REps.

Fixpoint mt (r : regex) (s : string) (i : nat) (k : nat -> bool) : bool :=
  match r with
  | REps => k i
  | RChar c =>
      match String.get i s with
      | Some c' => Ascii.eqb c c' && k (S i)
      | None => false
      end
  | RClass p =>
      match String.get i s with
      | Some c' => p c' && k (S i)
      | None => false
      end
  | RBol => Nat.eqb i 0 && k i
  | REol => Nat.eqb i (String.length s) && k i
  | RSeq a b => mt a s i (fun j => mt b s j k)
  | RAlt a b => mt a s i k || mt b s i k
  | RStar a =>
      (* each further iteration consumes at least one character, so
         [length s] iterations cover every match *)
      (fix go (fuel i : nat) {struct fuel} : bool :=
         k i || match fuel with
                | O => false
                | S f => mt a s i (fun j => Nat.ltb i j && go f j)
                end) (String.length s) i
  end.

(** [regexp.Match(pattern, b)]: an unanchored search, true when the pattern
    matches somewhere in [b]. *)
Definition regexp_Match (r : regex) (s : string) : bool :=
  existsb (fun i => mt r s i (fun _ => true)) (seq 0 (S (String.length s))).

Definition is_lower (c : ascii) : bool :=
  Nat.leb (Ascii.nat_of_ascii "a"%char) (Ascii.nat_of_ascii c)
  && Nat.leb (Ascii.nat_of_ascii c) (Ascii.nat_of_ascii "z"%char).

Definition is_digit (c : ascii) : bool :=
  Nat.leb (Ascii.nat_of_ascii "0"%char) (Ascii.nat_of_ascii c)
  && Nat.leb (Ascii.nat_of_ascii c) (Ascii.nat_of_ascii "9"%char).

(** [[a-z\d]] *)
Definition cls_alnum (c : ascii) : bool := is_lower c || is_digit c.

(** [[a-z\d\-]] *)
Definition cls_alnum_dash (c : ascii) : bool := cls_alnum c || Ascii.eqb c "-".

(** The group repeated in [domainReg]: either a run of [[a-z\d]], or a run
    of [[a-z\d\-]] followed by one [[a-z\d]]. *)
Definition label_tail : regex :=
  RAlt (RStar (RClass cls_alnum))
       (RSeq (RStar (RClass cls_alnum_dash)) (RClass cls_alnum)).

(** [const domainReg = `/^\.?[a-z\d]+(?:...)(?:\.[a-z\d]+(?:...))*$/`]:
    the pattern keeps the two literal slashes around the anchored
    expression. *)
Definition domainReg : regex :=
  RSeq (RChar "/")
  (RSeq RBol
  (RSeq (ROpt (RChar "."))
  (RSeq (RPlus (RClass cls_alnum))
  (RSeq label_tail
  (RSeq (RStar (RSeq (RChar ".") (RSeq (RPlus (RClass cls_alnum)) label_tail)))
  (RSeq REol
        (RChar "/"))))))).

(** ** HTTP collaborators *)

(** [strings.Split(s, ":")[0]]: the text before the first colon. *)
Fixpoint before_colon (s : string) : string :=
  match s with
  | EmptyString => EmptyString
  | String c rest => if Ascii.eqb c ":" then EmptyString else String c (before_colon rest)
  end.

(** First value stored under [k], if any. *)
Fixpoint assoc (k : string) (l : list (string * string)) : option string :=
  match l with
  | [] => None
  | (k', v) :: l' => if String.eqb k k' then Some v else assoc k l'
  end.

Record Request : Type := {
  Method : string;
  ReqHeader : list (string * string);  (* header lines, canonical keys *)
  ReqCookies : list (string * string); (* cookies sent by the client *)
  ReqForm : list (string * string);    (* parsed form values *)
  Host : string
}.

(** [r.Header.Get(k)]: the first value, or [""] when absent. *)
Definition header_get (h : list (string * string)) (k : string) : string :=
  match assoc k h with Some v => v | None => "" end.

(** [r.Cookie(name)]: the first cookie of that name, [None] for
    [ErrNoCookie]. *)
Definition request_cookie (r : Request) (name : string) : option string :=
  assoc name (ReqCookies r).

(** [r.FormValue(k)]: the first value, or [""] when absent. *)
Definition form_value (r : Request) (k : string) : string :=
  match assoc k (ReqForm r) with Some v => v | None => "" end.

(** [http.Cookie], the fields [Generate] sets. *)
Record Cookie : Type := {
  CName : string;
  CValue : string;
  CPath : string;
  CDomain : string;
  CExpires : N;
  CMaxAge : nat;
  CSecure : bool;
  CHttpOnly : bool;
  CRaw : string;
  CUnparsed : list string
}.

(** What a handler writes to the [http.ResponseWriter]: the cookies set by
    [http.SetCookie], the header lines added with [w.Header().Add], and the
    status code and message of an [http.Error]. *)
Record Response : Type := {
  RespCookies : list Cookie;
  RespHeaders : list (string * string);
  RespError : option (N * string)
}.

Definition empty_response : Response := {| RespCookies := []; RespHeaders := []; RespError := None |}.

Definition set_cookie (w : Response) (c : Cookie) : Response :=
  {| RespCookies := RespCookies w ++ [c]; RespHeaders := RespHeaders w;
     RespError := RespError w |}.

Definition add_header (w : Response) (k v : string) : Response :=
  {| RespCookies := RespCookies w; RespHeaders := RespHeaders w ++ [(k, v)];
     RespError := RespError w |}.

Definition StatusBadRequest : N := 400.

(** [http.Error(w, msg, code)]: the status code and the message.  The
    [Content-Type] header line that [http.Error] also sets is not recorded. *)
Definition http_error (w : Response) (msg : string) (code : N) : Response :=
  {| RespCookies := RespCookies w; RespHeaders := RespHeaders w;
     RespError := Some (code, msg) |}.

(** A value stored in the session: [s.Get] returns an [interface{}]. *)
Inductive SessionValue : Type :=
| SVString (s : string)
| SVOther (tag : nat).               (* any value whose dynamic type is not string *)

Definition Session : Type := list (string * SessionValue).

(** [s.Get(key)], [None] for [nil]. *)
Fixpoint session_get (s : Session) (k : string) : option SessionValue :=
  match s with
  | [] => None
  | (k', v) :: s' => if String.eqb k k' then Some v else session_get s' k
  end.

(** ** The package: [csrf], [Options], [Generate], [Validate] *)

(** [type Options struct] *)
Record Options : Type := {
  OSecret : string;
  OSessionKey : string;
  OSetHeader : bool;
  OSetCookie : bool;
  OSecure : bool
}.

(** [type csrf struct] *)
Record csrf : Type := {
  Token : string;
  Id : string;
  Secret : string
}.

(** [type Csrf interface]: an interface value, its two methods bound to the
    receiver. *)
Record Csrf : Type := {
  GetToken : unit -> string;
  ValidToken : string -> bool
}.

(** One day, [time.Now().AddDate(0, 0, 1)], in seconds. *)
Definition OneDay : N := 86400.

Section Middleware.

Variable hmac : string -> string -> string.

(** [func (c *csrf) GetToken() string] *)
Definition csrf_GetToken (c : csrf) : string := Token c.

(** [func (c *csrf) ValidToken(t string) bool], at clock reading [now]. *)
Definition csrf_ValidToken (c : csrf) (now : N) (t : string) : bool :=
  verify hmac t (Secret c) (Id c) "POST" now.

(** [c.MapTo(x, ...)], mapping [x] as a [Csrf]: the interface value handed
    downstream. *)
Definition csrf_as_Csrf (c : csrf) (now : N) : Csrf :=
  {| GetToken := fun _ => csrf_GetToken c; ValidToken := csrf_ValidToken c now |}.

(** The cookie literal of [Generate]. *)
Definition csrf_cookie (tok domain : string) (expire : N) (secure : bool) : Cookie :=
  {| CName := "_csrf"; CValue := tok; CPath := "/"; CDomain := domain;
     CExpires := expire; CMaxAge := 0; CSecure := secure; CHttpOnly := false;
     CRaw := "_csrf=" ++ tok; CUnparsed := ["token=" ++ tok] |}.

(** The minting branch: [x.Token = xsrftoken.Generate(x.Secret, x.Id, "POST")]
    and, with [SetCookie], the [_csrf] cookie. *)
Definition mint (opts : Options) (r : Request) (now : N) (x : csrf) (w : Response)
  : csrf * Response :=
  let tok := derive hmac (Secret x) (Id x) "POST" now in
  let x := {| Token := tok; Id := Id x; Secret := Secret x |} in
  if OSetCookie opts then
    let expire := (now + OneDay)%N in
    let domain := before_colon (Host r) in
    let domain := if regexp_Match domainReg domain then domain else "" in
    (x, set_cookie w (csrf_cookie tok domain expire (OSecure opts)))
  else (x, w).

(** [func Generate(opts *Options) martini.Handler], run on one request with
    session [s] at clock reading [now].  The result is the [csrf] value
    mapped into the context (as it stands when the handler returns; it is
    mapped by pointer) and the response written so far. *)
Definition Generate (opts : Options) (s : Session) (r : Request) (now : N)
    (w : Response) : csrf * Response :=
  let x := {| Token := ""; Id := ""; Secret := OSecret opts |} in
  match session_get s (OSessionKey opts) with
  | None => (x, w)
  | Some (SVOther _) => (x, w)
  | Some (SVString uid) =>
      let x := {| Token := Token x; Id := uid; Secret := Secret x |} in
      if String.eqb (Method r) "GET"
         && String.eqb (header_get (ReqHeader r) "X-API-Key") "" then
        let '(x, w) :=
          match request_cookie r "_csrf" with
          | Some v =>
              if negb (String.eqb v "") then
                ({| Token := v; Id := Id x; Secret := Secret x |}, w)
              else mint opts r now x w
          | None => mint opts r now x w
          end in
        if OSetHeader opts then (x, add_header w "X-CSRFToken" (Token x))
        else (x, w)
      else (x, w)
  end.

End Middleware.

(** [func Validate(r *http.Request, w http.ResponseWriter, x Csrf)]: the
    response after the handler; martini runs the next handler only when
    nothing was written. *)
Definition Validate (r : Request) (w : Response) (x : Csrf) : Response :=
  let token := header_get (ReqHeader r) "X-CSRFToken" in
  if negb (String.eqb token "") then
    if negb (ValidToken x token) then http_error w "Invalid X-CSRFToken" StatusBadRequest
    else w
  else
    let token := form_value r "_csrf" in
    if negb (String.eqb token "") then
      if negb (ValidToken x token) then http_error w "Invalid _csrf token" StatusBadRequest
      else w
    else http_error w "Bad Request" StatusBadRequest.

(** ** Evaluations *)

(** A stand-in for the keyed tag, injective in the message, used to run the
    definitions on concrete inputs. *)
Definition sample_mac (key msg : string) : string := key ++ "|" ++ msg.

(** The hostname-shape expression without its two slashes. *)
Definition domainReg_body : regex :=
  RSeq RBol
  (RSeq (ROpt (RChar "."))
  (RSeq (RPlus (RClass cls_alnum))
  (RSeq label_tail
  (RSeq (RStar (RSeq (RChar ".") (RSeq (RPlus (RClass cls_alnum)) label_tail)))
        REol)))).

Example domainReg_body_accepts : regexp_Match domainReg_body "example.com" = true.
Proof. vm_compute. reflexivity. Qed.

Example domainReg_body_rejects : regexp_Match domainReg_body "exa_mple.com" = false.
Proof. vm_compute. reflexivity. Qed.

Example domainReg_rejects_slashed : regexp_Match domainReg "/example.com/" = false.
Proof. vm_compute. reflexivity. Qed.

Example derive_sample :
  derive sample_mac "k" "u" "POST" 1234 = "k|u:POST:1234:1234".
Proof. reflexivity. Qed.

Example verify_sample_other_subject :
  verify sample_mac (derive sample_mac "k" "u" "POST" 1234) "k" "v" "POST" 2000 = false.
Proof. vm_compute. reflexivity. Qed.

(** ** Lemmas on strings *)

Lemma list_ascii_of_string_app (s1 s2 : string) :
  list_ascii_of_string (s1 ++ s2) = (list_ascii_of_string s1 ++ list_ascii_of_string s2)%list.
Proof. induction s1 as [|c s1 IH]; simpl; [reflexivity | now rewrite IH]. Qed.

Lemma string_app_inv_tail (s1 s2 q : string) : s1 ++ q = s2 ++ q -> s1 = s2.
Proof.
  intros E.
  apply (f_equal list_ascii_of_string) in E.
  rewrite !list_ascii_of_string_app in E.
  apply app_inv_tail in E.
  rewrite <- (string_of_list_ascii_of_string s1), <- (string_of_list_ascii_of_string s2).
  now rewrite E.
Qed.

Lemma string_app_inv_head (p s1 s2 : string) : p ++ s1 = p ++ s2 -> s1 = s2.
Proof. induction p as [|c p IH]; simpl; [easy | intros E; injection E; exact IH]. Qed.

Lemma string_of_uint_no_colon (d : Decimal.uint) :
  split_last_colon (string_of_uint d) = None.
Proof. induction d; simpl; try rewrite IHd; reflexivity. Qed.

Lemma split_last_colon_app (p d : string) :
  split_last_colon d = None -> split_last_colon (p ++ ":" ++ d) = Some (p, d).
Proof.
  intros Hd. induction p as [|c p IH]; simpl.
  - now rewrite Hd.
  - simpl in IH. now rewrite IH.
Qed.

Lemma uint_of_string_of_uint (d : Decimal.uint) :
  uint_of_string (string_of_uint d) = Some d.
Proof. induction d; simpl; try rewrite IHd; reflexivity. Qed.

Lemma parse_show_N (n : N) : parse_N (show_N n) = Some n.
Proof.
  assert (Hne : show_N n <> "").
  { unfold show_N. destruct (N.to_uint n) eqn:E; simpl; try discriminate.
    pose proof (DecimalN.Unsigned.of_to n) as H.
    rewrite E in H. simpl in H. subst n. discriminate E. }
  unfold parse_N. destruct (show_N n) as [|c r] eqn:S; [contradiction|].
  rewrite <- S. unfold show_N. rewrite uint_of_string_of_uint. simpl.
  f_equal. apply DecimalN.Unsigned.of_to.
Qed.

Lemma split_derive hmac s u a t :
  split_last_colon (derive hmac s u a t)
  = Some (hmac s (u ++ ":" ++ a ++ ":" ++ show_N t), show_N t).
Proof. unfold derive. apply split_last_colon_app, string_of_uint_no_colon. Qed.

(** [verify] on a derived token: the window test and the comparison with the
    token derived at the embedded timestamp. *)
Lemma verify_derive hmac s u a s' u' a' t now :
  verify hmac (derive hmac s u a t) s' u' a' now
  = within_window now t && String.eqb (derive hmac s u a t) (derive hmac s' u' a' t).
Proof. unfold verify. rewrite split_derive, parse_show_N. reflexivity. Qed.

Lemma verify_true_derived hmac c s u a now :
  verify hmac c s u a now = true ->
  exists t, c = derive hmac s u a t /\ within_window now t = true.
Proof.
  unfold verify.
  destruct (split_last_colon c) as [[p ts]|]; [|discriminate].
  destruct (parse_N ts) as [t|]; [|discriminate].
  intros H. apply andb_true_iff in H as [Hw He].
  exists t. split; [now apply String.eqb_eq | exact Hw].
Qed.

Lemma sample_mac_inj (k m1 m2 : string) : sample_mac k m1 = sample_mac k m2 -> m1 = m2.
Proof.
  unfold sample_mac. intros E. apply string_app_inv_head in E.
  simpl in E. now injection E.
Qed.

Lemma within_window_expired now t :
  (Timeout <= now - t)%N -> within_window now t = false.
Proof.
  intros H. unfold within_window.
  destruct (t <=? now)%N; simpl; [|reflexivity].
  apply N.ltb_ge. exact H.
Qed.

(** ** TokenCodec claims *)

(** C1: for every secret [s], subject id [u] and derivation time [t] within
    the validity window of [now], the token derived for [(s, u, "POST", t)]
    verifies against [(s, u, "POST")] at [now], directly and through
    [csrf.ValidToken] of a context holding [s] and [u]. *)
Theorem derive_verify_roundtrip hmac (s u tok : string) (t now : N)
  (Hw : within_window now t = true) :
  verify hmac (derive hmac s u "POST" t) s u "POST" now = true
  /\ csrf_ValidToken hmac {| Token := tok; Id := u; Secret := s |} now
       (derive hmac s u "POST" t) = true.
Proof.
  unfold csrf_ValidToken; simpl.
  rewrite verify_derive, Hw, String.eqb_refl. split; reflexivity.
Qed.

Lemma derive_verify_roundtrip_witness :
  within_window 1000 1 = true
  /\ verify sample_mac (derive sample_mac "k" "u" "POST" 1) "k" "u" "POST" 1000 = true
  /\ csrf_ValidToken sample_mac {| Token := ""; Id := "u"; Secret := "k" |} 1000
       (derive sample_mac "k" "u" "POST" 1) = true.
Proof.
  split; [reflexivity|].
  apply (derive_verify_roundtrip sample_mac "k" "u" "" 1 1000). reflexivity.
Defined.

(** C3: with a collision-free tag, a candidate verifies exactly when it is the
    token derived from the same secret, subject id and action label at a
    timestamp within the window of [now]; a token derived for [u1] does not
    verify for a distinct [u2] under the same secret; and a token whose
    timestamp is at least [Timeout] older than [now] fails verification
    with the right secret and subject. *)
Theorem token_binding hmac
  (Hinj : forall k m1 m2, hmac k m1 = hmac k m2 -> m1 = m2) :
  (forall c s u a now,
     verify hmac c s u a now = true
     <-> exists t, c = derive hmac s u a t /\ within_window now t = true)
  /\ (forall s u1 u2 t now, u1 <> u2 ->
        verify hmac (derive hmac s u1 "POST" t) s u2 "POST" now = false)
  /\ (forall s u t now, (Timeout <= now - t)%N ->
        verify hmac (derive hmac s u "POST" t) s u "POST" now = false).
Proof.
  split; [|split].
  - intros c s u a now. split; [apply verify_true_derived|].
    intros [t [-> Hw]]. now rewrite verify_derive, Hw, String.eqb_refl.
  - intros s u1 u2 t now Hu. rewrite verify_derive.
    destruct (String.eqb_spec (derive hmac s u1 "POST" t) (derive hmac s u2 "POST" t))
      as [E|E]; [|apply andb_false_r].
    exfalso. apply Hu. unfold derive in E.
    apply string_app_inv_tail in E. apply Hinj in E.
    exact (string_app_inv_tail _ _ _ E).
  - intros s u t now H. rewrite verify_derive, within_window_expired by exact H.
    reflexivity.
Qed.

Lemma token_binding_witness :
  (forall k m1 m2, sample_mac k m1 = sample_mac k m2 -> m1 = m2)
  /\ verify sample_mac (derive sample_mac "k" "u1" "POST" 5) "k" "u2" "POST" 10 = false
  /\ verify sample_mac (derive sample_mac "k" "u" "POST" 0) "k" "u" "POST" 86400 = false.
Proof.
  destruct (token_binding sample_mac sample_mac_inj) as [_ [H2 H3]].
  split; [exact sample_mac_inj|split].
  - apply H2. discriminate.
  - apply H3. unfold Timeout. lia.
Defined.

(** C8: [verify] is a total boolean function on every candidate string; it
    answers [false] exactly on the candidates that are not a token derived
    for the same secret, subject id and action label at a timestamp within
    the window, in particular on the empty string. *)
Theorem verify_total_false_otherwise hmac (c s u a : string) (now : N) :
  (verify hmac c s u a now = false
   <-> ~ exists t, c = derive hmac s u a t /\ within_window now t = true)
  /\ verify hmac "" s u a now = false.
Proof.
  split; [|reflexivity].
  split.
  - intros Hf [t [-> Hw]].
    rewrite verify_derive, Hw, String.eqb_refl in Hf. discriminate.
  - intros Hn. destruct (verify hmac c s u a now) eqn:E; [|reflexivity].
    exfalso. apply Hn. exact (verify_true_derived _ _ _ _ _ _ E).
Qed.

(** ** Generate *)

(** The API-key test of [Generate]. *)
Definition api_request (r : Request) : bool :=
  negb (String.eqb (header_get (ReqHeader r) "X-API-Key") "").

(** The reuse test of [Generate]: a non-empty [_csrf] cookie. *)
Definition existing_token (r : Request) : option string :=
  match request_cookie r "_csrf" with
  | Some v => if String.eqb v "" then None else Some v
  | None => None
  end.

Lemma Generate_issuing hmac opts s r now w uid :
  session_get s (OSessionKey opts) = Some (SVString uid) ->
  Method r = "GET" -> api_request r = false ->
  Generate hmac opts s r now w =
    let '(x, w) :=
      match existing_token r with
      | Some v => ({| Token := v; Id := uid; Secret := OSecret opts |}, w)
      | None => mint hmac opts r now {| Token := ""; Id := uid; Secret := OSecret opts |} w
      end in
    if OSetHeader opts then (x, add_header w "X-CSRFToken" (Token x)) else (x, w).
Proof.
  intros Hs Hm Ha. unfold Generate, api_request, existing_token in *.
  rewrite Hs, Hm. simpl.
  apply negb_false_iff in Ha. rewrite Ha.
  destruct (request_cookie r "_csrf") as [v|]; [|reflexivity].
  destruct (String.eqb v ""); reflexivity.
Qed.

Lemma Generate_not_issuing hmac opts s r now w uid :
  session_get s (OSessionKey opts) = Some (SVString uid) ->
  (Method r <> "GET" \/ api_request r = true) ->
  Generate hmac opts s r now w = ({| Token := ""; Id := uid; Secret := OSecret opts |}, w).
Proof.
  intros Hs Hc. unfold Generate, api_request in *. rewrite Hs.
  destruct Hc as [Hm|Ha].
  - apply String.eqb_neq in Hm. rewrite Hm. reflexivity.
  - apply negb_true_iff in Ha. rewrite Ha, andb_false_r. reflexivity.
Qed.

Definition opts_sample : Options :=
  {| OSecret := "k"; OSessionKey := "uid"; OSetHeader := true; OSetCookie := true;
     OSecure := true |}.

Definition get_request (cookies header : list (string * string)) : Request :=
  {| Method := "GET"; ReqHeader := header; ReqCookies := cookies; ReqForm := [];
     Host := "example.com:8080" |}.

(** C4 (as stated, refuted): two GET requests carrying the non-empty
    [_csrf] cookie "abc" on which the context's token does not hold the
    cookie value: one with no subject id in the session, one with a string
    subject id but a non-empty [X-API-Key] header. *)
Lemma reuse_cookie_counterexample :
  Method (get_request [("_csrf", "abc")] []) = "GET"
  /\ request_cookie (get_request [("_csrf", "abc")] []) "_csrf" = Some "abc"
  /\ Token (fst (Generate sample_mac opts_sample [] (get_request [("_csrf", "abc")] [])
                  5 empty_response)) <> "abc"
  /\ Method (get_request [("_csrf", "abc")] [("X-API-Key", "key")]) = "GET"
  /\ request_cookie (get_request [("_csrf", "abc")] [("X-API-Key", "key")]) "_csrf"
     = Some "abc"
  /\ Token (fst (Generate sample_mac opts_sample [("uid", SVString "u")]
                  (get_request [("_csrf", "abc")] [("X-API-Key", "key")])
                  5 empty_response)) <> "abc".
Proof. vm_compute. repeat split; discriminate. Qed.

(** C4 (amended): on a GET request without a non-empty [X-API-Key] header,
    whose session holds a string subject id [uid] and whose [_csrf] cookie
    has a non-empty value [v], the context's token is [v] as it is (whatever
    [v] is: no verification), no cookie is written, and only the
    [X-CSRFToken] header with [v] is added when [SetHeader] is on.  On a GET
    request whose session holds no string subject id, or that carries a
    non-empty [X-API-Key] header, the token stays empty. *)
Theorem reuse_existing_cookie :
  (forall hmac opts s r now w uid v,
     session_get s (OSessionKey opts) = Some (SVString uid) ->
     Method r = "GET" -> api_request r = false ->
     request_cookie r "_csrf" = Some v -> v <> "" ->
     fst (Generate hmac opts s r now w) = {| Token := v; Id := uid; Secret := OSecret opts |}
     /\ RespCookies (snd (Generate hmac opts s r now w)) = RespCookies w
     /\ RespHeaders (snd (Generate hmac opts s r now w))
        = (RespHeaders w ++ (if OSetHeader opts then [("X-CSRFToken", v)] else []))%list)
  /\ (forall hmac opts s r now w,
        Method r = "GET" ->
        ((forall uid, session_get s (OSessionKey opts) <> Some (SVString uid))
         \/ api_request r = true) ->
        Token (fst (Generate hmac opts s r now w)) = "").
Proof.
  split.
  - intros hmac opts s r now w uid v Hs Hm Ha Hc Hv.
    rewrite (Generate_issuing hmac opts s r now w uid Hs Hm Ha).
    unfold existing_token. rewrite Hc.
    apply String.eqb_neq in Hv. rewrite Hv.
    destruct (OSetHeader opts); simpl; rewrite ?app_nil_r; repeat split.
  - intros hmac opts s r now w Hm Hc.
    destruct (session_get s (OSessionKey opts)) as [[uid|t]|] eqn:Hs.
    + destruct Hc as [Hn|Ha]; [exfalso; exact (Hn uid eq_refl)|].
      rewrite (Generate_not_issuing hmac opts s r now w uid Hs (or_intror Ha)).
      reflexivity.
    + unfold Generate. rewrite Hs. reflexivity.
    + unfold Generate. rewrite Hs. reflexivity.
Qed.

Lemma reuse_existing_cookie_witness :
  (fst (Generate sample_mac opts_sample [("uid", SVString "u")]
          (get_request [("_csrf", "abc")] []) 5 empty_response)
     = {| Token := "abc"; Id := "u"; Secret := "k" |}
   /\ RespCookies (snd (Generate sample_mac opts_sample [("uid", SVString "u")]
          (get_request [("_csrf", "abc")] []) 5 empty_response)) = []
   /\ RespHeaders (snd (Generate sample_mac opts_sample [("uid", SVString "u")]
          (get_request [("_csrf", "abc")] []) 5 empty_response))
      = ([] ++ [("X-CSRFToken", "abc")])%list)
  /\ Token (fst (Generate sample_mac opts_sample [("uid", SVOther 3)]
                  (get_request [("_csrf", "abc")] []) 5 empty_response)) = ""
  /\ Token (fst (Generate sample_mac opts_sample [("uid", SVString "u")]
                  (get_request [("_csrf", "abc")] [("X-API-Key", "key")])
                  5 empty_response)) = "".
Proof.
  destruct reuse_existing_cookie as [H1 H2].
  split; [|split].
  - apply (H1 sample_mac opts_sample [("uid", SVString "u")]
             (get_request [("_csrf", "abc")] []) 5%N empty_response "u" "abc");
      [reflexivity | reflexivity | reflexivity | reflexivity | discriminate].
  - apply H2; [reflexivity|]. left. intros uid. discriminate.
  - apply H2; [reflexivity|]. right. reflexivity.
Defined.

(** The domain [Generate] puts on its cookie: the host up to the port, kept
    only when it passes the hostname-shape check. *)
Definition cookie_domain (r : Request) : string :=
  if regexp_Match domainReg (before_colon (Host r)) then before_colon (Host r) else "".

(** C5 (as stated, refuted): with [SetCookie] on, a GET request whose
    session holds a subject id and whose [_csrf] cookie carries a token:
    the token is issued into the context, but no [_csrf] cookie is
    written. *)
Lemma cookie_on_reuse_counterexample :
  OSetCookie opts_sample = true
  /\ Token (fst (Generate sample_mac opts_sample [("uid", SVString "u")]
                  (get_request [("_csrf", "abc")] []) 5 empty_response)) = "abc"
  /\ ~ exists c, In c (RespCookies (snd (Generate sample_mac opts_sample
                  [("uid", SVString "u")] (get_request [("_csrf", "abc")] []) 5
                  empty_response))) /\ CName c = "_csrf".
Proof.
  split; [reflexivity|]. split; [reflexivity|].
  vm_compute. intros [c [[] _]].
Qed.

(** C5 (amended): with [SetCookie] on, when [Generate] mints a fresh token
    (GET request, no [X-API-Key], a string subject id in the session, no
    non-empty [_csrf] cookie), exactly one cookie is written: named
    [_csrf], the token as value, path ["/"], expiring one day after [now],
    [Secure] as configured, [HttpOnly] false, and as domain the host without
    its port when that passes the hostname-shape check, else [""].  When the
    token is reused from the request's cookie, no cookie is written. *)
Theorem cookie_on_mint hmac opts s r now w uid :
  OSetCookie opts = true ->
  session_get s (OSessionKey opts) = Some (SVString uid) ->
  Method r = "GET" -> api_request r = false ->
  (existing_token r = None ->
   exists c,
     RespCookies (snd (Generate hmac opts s r now w)) = (RespCookies w ++ [c])%list
     /\ CName c = "_csrf"
     /\ CValue c = Token (fst (Generate hmac opts s r now w))
     /\ Token (fst (Generate hmac opts s r now w))
        = derive hmac (OSecret opts) uid "POST" now
     /\ CPath c = "/"
     /\ CExpires c = (now + OneDay)%N
     /\ CSecure c = OSecure opts
     /\ CHttpOnly c = false
     /\ CDomain c = cookie_domain r)
  /\ (forall v, existing_token r = Some v ->
        RespCookies (snd (Generate hmac opts s r now w)) = RespCookies w).
Proof.
  intros Hc Hs Hm Ha.
  rewrite (Generate_issuing hmac opts s r now w uid Hs Hm Ha).
  split.
  - intros He. rewrite He. unfold mint. rewrite Hc. simpl.
    eexists. destruct (OSetHeader opts); simpl;
      (split; [reflexivity|]); repeat split.
  - intros v He. rewrite He. destruct (OSetHeader opts); reflexivity.
Qed.

Lemma cookie_on_mint_witness :
  exists c,
    RespCookies (snd (Generate sample_mac opts_sample [("uid", SVString "u")]
                        (get_request [] []) 5 empty_response)) = ([] ++ [c])%list
    /\ CName c = "_csrf"
    /\ CValue c = Token (fst (Generate sample_mac opts_sample [("uid", SVString "u")]
                        (get_request [] []) 5 empty_response))
    /\ Token (fst (Generate sample_mac opts_sample [("uid", SVString "u")]
                        (get_request [] []) 5 empty_response))
       = derive sample_mac "k" "u" "POST" 5
    /\ CPath c = "/"
    /\ CExpires c = (5 + OneDay)%N
    /\ CSecure c = true
    /\ CHttpOnly c = false
    /\ CDomain c = cookie_domain (get_request [] []).
Proof.
  apply (proj1 (cookie_on_mint sample_mac opts_sample [("uid", SVString "u")]
                  (get_request [] []) 5 empty_response "u"
                  eq_refl eq_refl eq_refl eq_refl)).
  reflexivity.
Defined.

(** C6: on a GET request with a non-empty [X-API-Key] header, [Generate]
    writes nothing (no cookie, no header), whatever [SetCookie] and
    [SetHeader] are. *)
Theorem api_key_no_issuance hmac opts s r now w :
  Method r = "GET" -> api_request r = true ->
  snd (Generate hmac opts s r now w) = w
  /\ Token (fst (Generate hmac opts s r now w)) = "".
Proof.
  intros Hm Ha. unfold Generate.
  destruct (session_get s (OSessionKey opts)) as [[uid|t]|]; try (split; reflexivity).
  unfold api_request in Ha. apply negb_true_iff in Ha.
  rewrite Hm, Ha. split; reflexivity.
Qed.

Lemma api_key_no_issuance_witness :
  snd (Generate sample_mac opts_sample [("uid", SVString "u")]
         (get_request [] [("X-API-Key", "key")]) 5 empty_response) = empty_response
  /\ Token (fst (Generate sample_mac opts_sample [("uid", SVString "u")]
         (get_request [] [("X-API-Key", "key")]) 5 empty_response)) = "".
Proof. apply api_key_no_issuance; reflexivity. Defined.

(** C7: [Generate] always yields a context holding the configured secret;
    when the session has no value at [SessionKey], or a value that is not a
    string, the subject id and token stay empty ([GetToken] returns [""])
    and nothing is written. *)
Theorem context_always_mapped hmac opts s r now w :
  Secret (fst (Generate hmac opts s r now w)) = OSecret opts
  /\ ((session_get s (OSessionKey opts) = None
       \/ exists t, session_get s (OSessionKey opts) = Some (SVOther t)) ->
      fst (Generate hmac opts s r now w) = {| Token := ""; Id := ""; Secret := OSecret opts |}
      /\ csrf_GetToken (fst (Generate hmac opts s r now w)) = ""
      /\ snd (Generate hmac opts s r now w) = w).
Proof.
  split.
  - unfold Generate.
    destruct (session_get s (OSessionKey opts)) as [[uid|t]|]; try reflexivity.
    destruct (_ && _); [|reflexivity].
    destruct (match request_cookie r "_csrf" with
              | Some v => _ | None => _ end) as [x w'] eqn:E.
    assert (Secret x = OSecret opts).
    { destruct (request_cookie r "_csrf") as [v|];
        [destruct (negb (String.eqb v ""))|];
        unfold mint in E; try destruct (OSetCookie opts);
        injection E; intros; subst; reflexivity. }
    destruct (OSetHeader opts); assumption.
  - intros [H|[t H]]; unfold Generate; rewrite H; repeat split.
Qed.

Lemma context_always_mapped_witness :
  Secret (fst (Generate sample_mac opts_sample [] (get_request [] []) 5 empty_response)) = "k"
  /\ fst (Generate sample_mac opts_sample [("uid", SVOther 7)] (get_request [] []) 5
            empty_response) = {| Token := ""; Id := ""; Secret := "k" |}
  /\ csrf_GetToken (fst (Generate sample_mac opts_sample [("uid", SVOther 7)]
            (get_request [] []) 5 empty_response)) = ""
  /\ snd (Generate sample_mac opts_sample [("uid", SVOther 7)] (get_request [] []) 5
            empty_response) = empty_response.
Proof.
  split; [exact (proj1 (context_always_mapped sample_mac opts_sample [] (get_request [] []) 5 empty_response))|].
  apply (proj2 (context_always_mapped sample_mac opts_sample [("uid", SVOther 7)]
                  (get_request [] []) 5 empty_response)).
  right. exists 7. reflexivity.
Defined.

Lemma domainReg_no_match (h : string) : regexp_Match domainReg h = false.
Proof.
  unfold regexp_Match.
  apply Bool.not_true_iff_false. intros H.
  apply existsb_exists in H as [i [_ Hi]].
  simpl in Hi. destruct (String.get i h) as [c|]; [|discriminate].
  rewrite andb_false_r in Hi. discriminate.
Qed.

(** C9: the hostname-shape check fails on every host (the pattern needs a
    literal "/" right before the beginning of the text), so every cookie
    [Generate] writes has an empty domain. *)
Theorem cookie_domain_always_empty :
  (forall h, regexp_Match domainReg h = false)
  /\ (forall hmac opts s r now w,
        exists written,
          RespCookies (snd (Generate hmac opts s r now w)) = (RespCookies w ++ written)%list
          /\ Forall (fun c => CDomain c = "") written).
Proof.
  split; [exact domainReg_no_match|].
  intros hmac opts s r now w.
  destruct (session_get s (OSessionKey opts)) as [[uid|t]|] eqn:Hs.
  - destruct (String.eqb_spec (Method r) "GET") as [Hm|Hm];
      [destruct (api_request r) eqn:Ha|].
    + rewrite (Generate_not_issuing hmac opts s r now w uid Hs (or_intror Ha)).
      exists []. rewrite app_nil_r. split; [reflexivity | constructor].
    + rewrite (Generate_issuing hmac opts s r now w uid Hs Hm Ha).
      destruct (existing_token r).
      * exists []. rewrite app_nil_r.
        destruct (OSetHeader opts); (split; [reflexivity | constructor]).
      * unfold mint. rewrite domainReg_no_match.
        destruct (OSetCookie opts), (OSetHeader opts); simpl;
          first [ exists []; rewrite app_nil_r; split; [reflexivity | constructor]
                | eexists; split; [reflexivity | repeat constructor] ].
    + rewrite (Generate_not_issuing hmac opts s r now w uid Hs (or_introl Hm)).
      exists []. rewrite app_nil_r. split; [reflexivity | constructor].
  - unfold Generate. rewrite Hs.
    exists []. rewrite app_nil_r. split; [reflexivity | constructor].
  - unfold Generate. rewrite Hs.
    exists []. rewrite app_nil_r. split; [reflexivity | constructor].
Qed.

(** C10: on a request that is not a GET, with a string subject id [uid] in
    the session, the context holds the secret and [uid] and an empty token
    ([GetToken] returns [""]), nothing is written, and the context's
    [ValidToken] checks candidates against the secret and [uid]. *)
Theorem non_get_no_delivery hmac opts s r now w uid :
  session_get s (OSessionKey opts) = Some (SVString uid) ->
  Method r <> "GET" ->
  fst (Generate hmac opts s r now w) = {| Token := ""; Id := uid; Secret := OSecret opts |}
  /\ csrf_GetToken (fst (Generate hmac opts s r now w)) = ""
  /\ snd (Generate hmac opts s r now w) = w
  /\ (forall t, ValidToken (csrf_as_Csrf hmac (fst (Generate hmac opts s r now w)) now) t
                = verify hmac t (OSecret opts) uid "POST" now).
Proof.
  intros Hs Hm.
  rewrite (Generate_not_issuing hmac opts s r now w uid Hs (or_introl Hm)).
  repeat split.
Qed.

Lemma non_get_no_delivery_witness :
  fst (Generate sample_mac opts_sample [("uid", SVString "u")]
         {| Method := "POST"; ReqHeader := []; ReqCookies := []; ReqForm := [];
            Host := "example.com" |} 5 empty_response)
    = {| Token := ""; Id := "u"; Secret := "k" |}
  /\ csrf_GetToken (fst (Generate sample_mac opts_sample [("uid", SVString "u")]
         {| Method := "POST"; ReqHeader := []; ReqCookies := []; ReqForm := [];
            Host := "example.com" |} 5 empty_response)) = ""
  /\ snd (Generate sample_mac opts_sample [("uid", SVString "u")]
         {| Method := "POST"; ReqHeader := []; ReqCookies := []; ReqForm := [];
            Host := "example.com" |} 5 empty_response) = empty_response
  /\ (forall t, ValidToken (csrf_as_Csrf sample_mac (fst (Generate sample_mac opts_sample
         [("uid", SVString "u")]
         {| Method := "POST"; ReqHeader := []; ReqCookies := []; ReqForm := [];
            Host := "example.com" |} 5 empty_response)) 5) t
       = verify sample_mac t "k" "u" "POST" 5).
Proof. apply non_get_no_delivery; [reflexivity | discriminate]. Defined.

(** ** Validate *)

(** The states of the validation policy, as the spec's state machine
    names them. *)
Inductive VState : Type :=
| NotChecked
| HeaderChecked (accepted : bool)
| FormChecked (accepted : bool)
| RejectedNoToken.

(** The spec's transition out of [NotChecked]: the header when present,
    else the form field when present, else no token. *)
Definition validation_spec_step (header form : string) (valid : string -> bool) : VState :=
  if negb (String.eqb header "") then HeaderChecked (valid header)
  else if negb (String.eqb form "") then FormChecked (valid form)
  else RejectedNoToken.

(** The spec's response for each terminal state: an accepted request is
    left untouched, a rejected one gets HTTP 400 with its message. *)
Definition validation_spec_response (w : Response) (st : VState) : Response :=
  match st with
  | NotChecked => w
  | HeaderChecked true | FormChecked true => w
  | HeaderChecked false => http_error w "Invalid X-CSRFToken" 400
  | FormChecked false => http_error w "Invalid _csrf token" 400
  | RejectedNoToken => http_error w "Bad Request" 400
  end.

(** C2: [Validate] is the spec's state machine: its response is the
    terminal state's response, reached from the [X-CSRFToken] header when
    that is non-empty, else from the [_csrf] form field when that is
    non-empty, else [RejectedNoToken]; and when the header is non-empty the
    form is not looked at. *)
Theorem Validate_state_machine (r : Request) (w : Response) (x : Csrf) :
  Validate r w x
  = validation_spec_response w
      (validation_spec_step (header_get (ReqHeader r) "X-CSRFToken")
         (form_value r "_csrf") (ValidToken x))
  /\ (header_get (ReqHeader r) "X-CSRFToken" <> "" ->
      forall form,
        Validate {| Method := Method r; ReqHeader := ReqHeader r;
                    ReqCookies := ReqCookies r; ReqForm := form; Host := Host r |} w x
        = Validate r w x).
Proof.
  split.
  - unfold Validate, validation_spec_step.
    destruct (String.eqb (header_get (ReqHeader r) "X-CSRFToken") ""); simpl.
    + destruct (String.eqb (form_value r "_csrf") ""); simpl; [reflexivity|].
      destruct (ValidToken x (form_value r "_csrf")); reflexivity.
    + destruct (ValidToken x (header_get (ReqHeader r) "X-CSRFToken")); reflexivity.
  - intros Hh form. unfold Validate. simpl.
    apply String.eqb_neq in Hh. rewrite Hh. reflexivity.
Qed.

Definition post_request (header form : list (string * string)) : Request :=
  {| Method := "POST"; ReqHeader := header; ReqCookies := []; ReqForm := form;
     Host := "example.com" |}.

Lemma Validate_state_machine_witness :
  Validate (post_request [("X-CSRFToken", "garbage")] [])
    empty_response (csrf_as_Csrf sample_mac {| Token := ""; Id := "u"; Secret := "k" |} 5)
  = http_error empty_response "Invalid X-CSRFToken" 400
  /\ Validate (post_request [("X-CSRFToken", "garbage")] [("_csrf", "other")])
    empty_response (csrf_as_Csrf sample_mac {| Token := ""; Id := "u"; Secret := "k" |} 5)
  = Validate (post_request [("X-CSRFToken", "garbage")] [])
    empty_response (csrf_as_Csrf sample_mac {| Token := ""; Id := "u"; Secret := "k" |} 5).
Proof.
  pose proof (Validate_state_machine (post_request [("X-CSRFToken", "garbage")] [])
                empty_response
                (csrf_as_Csrf sample_mac {| Token := ""; Id := "u"; Secret := "k" |} 5))
    as [H1 H2].
  split.
  - rewrite H1. vm_compute. reflexivity.
  - apply (H2 ltac:(discriminate) [("_csrf", "other")]).
Defined.

(** Validation scenarios of the spec, on a token derived for the session. *)
Example Validate_header_valid :
  Validate (post_request [("X-CSRFToken", derive sample_mac "k" "u" "POST" 5)] [])
    empty_response (csrf_as_Csrf sample_mac {| Token := ""; Id := "u"; Secret := "k" |} 10)
  = empty_response.
Proof. vm_compute. reflexivity. Qed.

Example Validate_form_valid :
  Validate (post_request [] [("_csrf", derive sample_mac "k" "u" "POST" 5)])
    empty_response (csrf_as_Csrf sample_mac {| Token := ""; Id := "u"; Secret := "k" |} 10)
  = empty_response.
Proof. vm_compute. reflexivity. Qed.

Example Validate_no_token :
  Validate (post_request [] [])
    empty_response (csrf_as_Csrf sample_mac {| Token := ""; Id := "u"; Secret := "k" |} 10)
  = http_error empty_response "Bad Request" 400.
Proof. reflexivity. Qed.

(** ** Further properties of [Generate] and [Validate] *)

(** What one run of [Generate] writes: the response it is given with at most
    one cookie appended (only with [SetCookie], a [_csrf] cookie carrying the
    context's token) and at most one header line appended (only with
    [SetHeader], [X-CSRFToken] with the context's token); the error status
    is left as it was. *)
Lemma Generate_shape hmac opts s r now w :
  exists cs hs,
    snd (Generate hmac opts s r now w)
      = {| RespCookies := (RespCookies w ++ cs)%list;
           RespHeaders := (RespHeaders w ++ hs)%list;
           RespError := RespError w |}
    /\ (length cs <= 1)%nat /\ (length hs <= 1)%nat
    /\ Forall (fun c => CName c = "_csrf"
                        /\ CValue c = Token (fst (Generate hmac opts s r now w))) cs
    /\ Forall (fun h => h = ("X-CSRFToken", Token (fst (Generate hmac opts s r now w)))) hs
    /\ (OSetCookie opts = false -> cs = [])
    /\ (OSetHeader opts = false -> hs = []).
Proof.
  destruct w as [wc wh we]; simpl.
  destruct (session_get s (OSessionKey opts)) as [[uid|t]|] eqn:Hs.
  - destruct (String.eqb_spec (Method r) "GET") as [Hm|Hm];
      [destruct (api_request r) eqn:Ha|].
    + rewrite (Generate_not_issuing hmac opts s r now _ uid Hs (or_intror Ha)).
      exists [], []. rewrite !app_nil_r. repeat split; auto.
    + rewrite (Generate_issuing hmac opts s r now _ uid Hs Hm Ha).
      destruct (existing_token r); [|unfold mint];
        destruct (OSetCookie opts) eqn:Hc, (OSetHeader opts) eqn:Hh;
        unfold add_header, set_cookie; simpl;
        first [ exists [], []; rewrite !app_nil_r; split; [reflexivity|]
              | refine (ex_intro _ [] (ex_intro _ [_] _)); rewrite !app_nil_r;
                split; [reflexivity|]
              | refine (ex_intro _ [_] (ex_intro _ [] _)); rewrite !app_nil_r;
                split; [reflexivity|]
              | refine (ex_intro _ [_] (ex_intro _ [_] _)); split; [reflexivity|] ];
        repeat split; simpl; auto; try discriminate;
        repeat constructor.
    + rewrite (Generate_not_issuing hmac opts s r now _ uid Hs (or_introl Hm)).
      exists [], []. rewrite !app_nil_r. repeat split; auto.
  - unfold Generate. rewrite Hs.
    exists [], []. rewrite !app_nil_r. repeat split; auto.
  - unfold Generate. rewrite Hs.
    exists [], []. rewrite !app_nil_r. repeat split; auto.
Qed.

Lemma derive_nonempty hmac s u a t : derive hmac s u a t <> "".
Proof. unfold derive. destruct (hmac _ _); simpl; discriminate. Qed.

Lemma Generate_mint_fst hmac opts s r now w uid :
  session_get s (OSessionKey opts) = Some (SVString uid) ->
  Method r = "GET" -> api_request r = false -> existing_token r = None ->
  fst (Generate hmac opts s r now w)
  = {| Token := derive hmac (OSecret opts) uid "POST" now; Id := uid;
       Secret := OSecret opts |}.
Proof.
  intros Hs Hm Ha He.
  rewrite (Generate_issuing hmac opts s r now w uid Hs Hm Ha), He. unfold mint.
  destruct (OSetCookie opts), (OSetHeader opts); reflexivity.
Qed.

Lemma existing_token_some r v :
  request_cookie r "_csrf" = Some v -> v <> "" -> existing_token r = Some v.
Proof.
  intros Hc Hv. unfold existing_token. rewrite Hc.
  apply String.eqb_neq in Hv. now rewrite Hv.
Qed.

Lemma Generate_reuse hmac opts s r now w uid v :
  session_get s (OSessionKey opts) = Some (SVString uid) ->
  Method r = "GET" -> api_request r = false -> existing_token r = Some v ->
  fst (Generate hmac opts s r now w) = {| Token := v; Id := uid; Secret := OSecret opts |}
  /\ RespCookies (snd (Generate hmac opts s r now w)) = RespCookies w.
Proof.
  intros Hs Hm Ha He.
  rewrite (Generate_issuing hmac opts s r now w uid Hs Hm Ha), He.
  destruct (OSetHeader opts); split; reflexivity.
Qed.

(** [Generate] never writes an error status and never drops what the
    response already holds: it appends at most one cookie and at most one
    header line. *)
Theorem Generate_appends_only hmac opts s r now w :
  RespError (snd (Generate hmac opts s r now w)) = RespError w
  /\ exists cs hs,
       RespCookies (snd (Generate hmac opts s r now w)) = (RespCookies w ++ cs)%list
       /\ RespHeaders (snd (Generate hmac opts s r now w)) = (RespHeaders w ++ hs)%list
       /\ (length cs <= 1)%nat /\ (length hs <= 1)%nat.
Proof.
  destruct (Generate_shape hmac opts s r now w) as (cs & hs & E & Hc & Hh & _).
  rewrite E. split; [reflexivity|]. exists cs, hs. repeat split; assumption.
Qed.

(** With [SetCookie] off [Generate] writes no cookie, and with [SetHeader]
    off it adds no header line. *)
Theorem Generate_respects_switches hmac opts s r now w :
  (OSetCookie opts = false -> RespCookies (snd (Generate hmac opts s r now w)) = RespCookies w)
  /\ (OSetHeader opts = false -> RespHeaders (snd (Generate hmac opts s r now w)) = RespHeaders w).
Proof.
  destruct (Generate_shape hmac opts s r now w) as (cs & hs & E & _ & _ & _ & _ & Hc & Hh).
  rewrite E. simpl. split.
  - intros H. rewrite (Hc H). apply app_nil_r.
  - intros H. rewrite (Hh H). apply app_nil_r.
Qed.

Definition opts_quiet : Options :=
  {| OSecret := "k"; OSessionKey := "uid"; OSetHeader := false; OSetCookie := false;
     OSecure := false |}.

Lemma Generate_respects_switches_witness :
  RespCookies (snd (Generate sample_mac opts_quiet [("uid", SVString "u")]
                      (get_request [] []) 5 empty_response)) = []
  /\ RespHeaders (snd (Generate sample_mac opts_quiet [("uid", SVString "u")]
                      (get_request [] []) 5 empty_response)) = [].
Proof.
  destruct (Generate_respects_switches sample_mac opts_quiet [("uid", SVString "u")]
              (get_request [] []) 5 empty_response) as [H1 H2].
  split; [exact (H1 eq_refl) | exact (H2 eq_refl)].
Defined.

(** The delivery channels agree with the context: every cookie [Generate]
    adds is the [_csrf] cookie holding the context's token, and every
    header line it adds is [X-CSRFToken] with the context's token. *)
Theorem Generate_channels_agree hmac opts s r now w :
  (forall c, In c (RespCookies (snd (Generate hmac opts s r now w))) ->
     In c (RespCookies w)
     \/ (CName c = "_csrf" /\ CValue c = Token (fst (Generate hmac opts s r now w))))
  /\ (forall h, In h (RespHeaders (snd (Generate hmac opts s r now w))) ->
     In h (RespHeaders w) \/ h = ("X-CSRFToken", Token (fst (Generate hmac opts s r now w)))).
Proof.
  destruct (Generate_shape hmac opts s r now w) as (cs & hs & E & _ & _ & Fc & Fh & _).
  rewrite E. simpl. split.
  - intros c Hin. apply in_app_or in Hin as [Hin|Hin]; [now left|].
    right. rewrite Forall_forall in Fc. exact (Fc c Hin).
  - intros h Hin. apply in_app_or in Hin as [Hin|Hin]; [now left|].
    right. rewrite Forall_forall in Fh. exact (Fh h Hin).
Qed.

(** On a GET request without [X-API-Key] whose session holds a string
    subject id, [Generate] always hands out a non-empty token, and with
    [SetHeader] on it sends that token in the [X-CSRFToken] header. *)
Theorem Generate_issues_nonempty hmac opts s r now w uid :
  session_get s (OSessionKey opts) = Some (SVString uid) ->
  Method r = "GET" -> api_request r = false ->
  csrf_GetToken (fst (Generate hmac opts s r now w)) <> ""
  /\ (OSetHeader opts = true ->
      In ("X-CSRFToken", Token (fst (Generate hmac opts s r now w)))
         (RespHeaders (snd (Generate hmac opts s r now w)))).
Proof.
  intros Hs Hm Ha.
  rewrite (Generate_issuing hmac opts s r now w uid Hs Hm Ha).
  unfold existing_token, csrf_GetToken.
  destruct (request_cookie r "_csrf") as [v|];
    [destruct (String.eqb v "") eqn:Hv|]; unfold mint;
    destruct (OSetCookie opts), (OSetHeader opts); simpl;
    (split; [ first [ apply derive_nonempty | apply String.eqb_neq; exact Hv ] |]);
    intros; try discriminate; apply in_or_app; right; left; reflexivity.
Qed.

Lemma Generate_issues_nonempty_witness :
  csrf_GetToken (fst (Generate sample_mac opts_sample [("uid", SVString "u")]
                        (get_request [] []) 5 empty_response)) <> ""
  /\ (OSetHeader opts_sample = true ->
      In ("X-CSRFToken", Token (fst (Generate sample_mac opts_sample [("uid", SVString "u")]
                                       (get_request [] []) 5 empty_response)))
         (RespHeaders (snd (Generate sample_mac opts_sample [("uid", SVString "u")]
                              (get_request [] []) 5 empty_response)))).
Proof. apply (Generate_issues_nonempty _ _ _ _ _ _ "u"); reflexivity. Defined.

(** A [_csrf] cookie with an empty value counts as no cookie: when the
    request has no non-empty [_csrf] cookie, [Generate] mints the token for
    the secret, the subject id, ["POST"] and the current time. *)
Theorem Generate_mints_without_cookie hmac opts s r now w uid :
  session_get s (OSessionKey opts) = Some (SVString uid) ->
  Method r = "GET" -> api_request r = false ->
  (request_cookie r "_csrf" = None \/ request_cookie r "_csrf" = Some "") ->
  fst (Generate hmac opts s r now w)
  = {| Token := derive hmac (OSecret opts) uid "POST" now; Id := uid;
       Secret := OSecret opts |}.
Proof.
  intros Hs Hm Ha Hc. apply Generate_mint_fst; try assumption.
  unfold existing_token. destruct Hc as [Hc|Hc]; rewrite Hc; reflexivity.
Qed.

Lemma Generate_mints_without_cookie_witness :
  fst (Generate sample_mac opts_sample [("uid", SVString "u")]
         (get_request [("_csrf", "")] []) 5 empty_response)
  = {| Token := derive sample_mac "k" "u" "POST" 5; Id := "u"; Secret := "k" |}.
Proof.
  apply (Generate_mints_without_cookie sample_mac opts_sample [("uid", SVString "u")]
           (get_request [("_csrf", "")] []) 5 empty_response "u"); try reflexivity.
  right. reflexivity.
Defined.

(** Issuing then validating: a token minted by [Generate] on a GET request,
    sent back in the [X-CSRFToken] header (or, with no such header, in the
    [_csrf] form field) of a later non-GET request of the same session
    inside the validity window, is accepted by [Validate] with the context
    [Generate] builds for that request: nothing is written. *)
Theorem issue_then_validate hmac opts s r1 t1 w1 r2 t2 w2 uid :
  session_get s (OSessionKey opts) = Some (SVString uid) ->
  Method r1 = "GET" -> api_request r1 = false -> existing_token r1 = None ->
  Method r2 <> "GET" -> within_window t2 t1 = true ->
  (header_get (ReqHeader r2) "X-CSRFToken" = Token (fst (Generate hmac opts s r1 t1 w1))
   \/ (header_get (ReqHeader r2) "X-CSRFToken" = ""
       /\ form_value r2 "_csrf" = Token (fst (Generate hmac opts s r1 t1 w1)))) ->
  Validate r2 w2 (csrf_as_Csrf hmac (fst (Generate hmac opts s r2 t2 w2)) t2) = w2.
Proof.
  intros Hs Hm1 Ha1 He1 Hm2 Hw Hd.
  rewrite (Generate_mint_fst hmac opts s r1 t1 w1 uid Hs Hm1 Ha1 He1) in Hd. simpl in Hd.
  rewrite (Generate_not_issuing hmac opts s r2 t2 w2 uid Hs (or_introl Hm2)).
  pose proof (derive_nonempty hmac (OSecret opts) uid "POST" t1) as Hne.
  apply String.eqb_neq in Hne.
  unfold Validate, csrf_as_Csrf, csrf_ValidToken; simpl.
  destruct Hd as [Hh|[Hh Hf]]; rewrite Hh; simpl.
  - rewrite Hne, verify_derive, Hw, String.eqb_refl. reflexivity.
  - rewrite Hf, Hne, verify_derive, Hw, String.eqb_refl. reflexivity.
Qed.

Lemma issue_then_validate_witness :
  Validate (post_request [("X-CSRFToken", derive sample_mac "k" "u" "POST" 5)] [])
    empty_response
    (csrf_as_Csrf sample_mac
       (fst (Generate sample_mac opts_sample [("uid", SVString "u")]
               (post_request [("X-CSRFToken", derive sample_mac "k" "u" "POST" 5)] [])
               100 empty_response)) 100)
  = empty_response.
Proof.
  apply (issue_then_validate sample_mac opts_sample [("uid", SVString "u")]
           (get_request [] []) 5 empty_response _ 100 empty_response "u");
    try reflexivity.
  - discriminate.
  - left. reflexivity.
Defined.

(** A token survives page renders: when a later GET request of the same
    session sends back, as its [_csrf] cookie, the token [Generate] minted
    earlier, [Generate] keeps that token (same context) and writes no new
    cookie. *)
Theorem reissue_keeps_token hmac opts s r1 t1 w1 r2 t2 w2 uid :
  session_get s (OSessionKey opts) = Some (SVString uid) ->
  Method r1 = "GET" -> api_request r1 = false -> existing_token r1 = None ->
  Method r2 = "GET" -> api_request r2 = false ->
  request_cookie r2 "_csrf" = Some (Token (fst (Generate hmac opts s r1 t1 w1))) ->
  fst (Generate hmac opts s r2 t2 w2) = fst (Generate hmac opts s r1 t1 w1)
  /\ RespCookies (snd (Generate hmac opts s r2 t2 w2)) = RespCookies w2.
Proof.
  intros Hs Hm1 Ha1 He1 Hm2 Ha2 Hc.
  rewrite (Generate_mint_fst hmac opts s r1 t1 w1 uid Hs Hm1 Ha1 He1) in *. simpl in Hc.
  apply (Generate_reuse hmac opts s r2 t2 w2 uid _ Hs Hm2 Ha2).
  apply existing_token_some; [exact Hc | apply derive_nonempty].
Qed.

Lemma reissue_keeps_token_witness :
  fst (Generate sample_mac opts_sample [("uid", SVString "u")]
         (get_request [("_csrf", derive sample_mac "k" "u" "POST" 5)] []) 50 empty_response)
  = fst (Generate sample_mac opts_sample [("uid", SVString "u")]
           (get_request [] []) 5 empty_response)
  /\ RespCookies (snd (Generate sample_mac opts_sample [("uid", SVString "u")]
         (get_request [("_csrf", derive sample_mac "k" "u" "POST" 5)] []) 50 empty_response))
     = [].
Proof.
  apply (reissue_keeps_token sample_mac opts_sample [("uid", SVString "u")]
           (get_request [] []) 5 empty_response
           (get_request [("_csrf", derive sample_mac "k" "u" "POST" 5)] []) 50
           empty_response "u"); reflexivity.
Defined.

(** [Validate] writes no cookie: it either leaves the response as it is
    (the request proceeds) or records status 400 with one
    of the messages "Invalid X-CSRFToken", "Invalid _csrf token" and
    "Bad Request". *)
Theorem Validate_frame (r : Request) (w : Response) (x : Csrf) :
  RespCookies (Validate r w x) = RespCookies w
  /\ (Validate r w x = w
      \/ exists m, In m ["Invalid X-CSRFToken"; "Invalid _csrf token"; "Bad Request"]
                   /\ RespError (Validate r w x) = Some (StatusBadRequest, m)).
Proof.
  unfold Validate.
  destruct (String.eqb (header_get (ReqHeader r) "X-CSRFToken") ""); simpl;
    [destruct (String.eqb (form_value r "_csrf") ""); simpl|];
    repeat match goal with |- context [if ?b then _ else _] => destruct b end;
    simpl; (split; [reflexivity|]);
    first [ left; reflexivity
          | right; eexists; split; [| reflexivity]; simpl; tauto ].
Qed.

(** A reused cookie value is passed on unchecked: when the [_csrf] cookie of
    a GET request carries a value that does not verify for the session's
    subject id, [Generate] still hands that value out as the token, and a
    later non-GET request sending it back in [X-CSRFToken] is rejected by
    [Validate] with "Invalid X-CSRFToken". *)
Theorem reused_cookie_unchecked hmac opts s r1 t1 w1 r2 t2 w2 uid v :
  session_get s (OSessionKey opts) = Some (SVString uid) ->
  Method r1 = "GET" -> api_request r1 = false ->
  request_cookie r1 "_csrf" = Some v -> v <> "" ->
  verify hmac v (OSecret opts) uid "POST" t2 = false ->
  Method r2 <> "GET" ->
  header_get (ReqHeader r2) "X-CSRFToken" = Token (fst (Generate hmac opts s r1 t1 w1)) ->
  Token (fst (Generate hmac opts s r1 t1 w1)) = v
  /\ Validate r2 w2 (csrf_as_Csrf hmac (fst (Generate hmac opts s r2 t2 w2)) t2)
     = http_error w2 "Invalid X-CSRFToken" StatusBadRequest.
Proof.
  intros Hs Hm1 Ha1 Hc Hv Hf Hm2 Hh.
  destruct (Generate_reuse hmac opts s r1 t1 w1 uid v Hs Hm1 Ha1
              (existing_token_some r1 v Hc Hv)) as [E _].
  rewrite E in Hh |- *. simpl in Hh. split; [reflexivity|].
  rewrite (Generate_not_issuing hmac opts s r2 t2 w2 uid Hs (or_introl Hm2)).
  unfold Validate, csrf_as_Csrf, csrf_ValidToken; simpl.
  apply String.eqb_neq in Hv. rewrite Hh, Hv, Hf. reflexivity.
Qed.

Lemma reused_cookie_unchecked_witness :
  Token (fst (Generate sample_mac opts_sample [("uid", SVString "u")]
                (get_request [("_csrf", "forged")] []) 5 empty_response)) = "forged"
  /\ Validate (post_request [("X-CSRFToken", "forged")] []) empty_response
       (csrf_as_Csrf sample_mac
          (fst (Generate sample_mac opts_sample [("uid", SVString "u")]
                  (post_request [("X-CSRFToken", "forged")] []) 10 empty_response)) 10)
     = http_error empty_response "Invalid X-CSRFToken" StatusBadRequest.
Proof.
  apply (reused_cookie_unchecked sample_mac opts_sample [("uid", SVString "u")]
           (get_request [("_csrf", "forged")] []) 5 empty_response
           (post_request [("X-CSRFToken", "forged")] []) 10 empty_response "u" "forged");
    try reflexivity; try discriminate.
Defined.
